(** * Direct S3 access to a Cloud Optimized GeoTIFF: the notebook workflow

    A shallow embedding of the code cells of
    [how-tos/Earthdata_Cloud__Single_File__Direct_S3_Access_COG_Example.ipynb].

    The notebook is a flat Python script: every cell is a few calls into
    third-party libraries ([requests], [boto3], [rasterio], [rioxarray],
    [xarray], [hvplot]).  The cells are embedded as computations in a
    state-and-exception monad over the state of the Python process; what
    the outside world answers to a library call (the HTTP endpoint, the
    JSON decoder, the S3 object store, the renderer) is a parameter, so
    that every theorem holds for every behaviour of the outside world. *)

From Stdlib Require Import Ascii.
From stdpp Require Import gmap strings list.

Open Scope Z_scope.

(** ** Python values that the notebook handles *)

(** What [Response.json()] returns: a decoded JSON document.  A JSON object
    becomes a Python [dict] keyed by strings.  The notebook computes with
    no number, so integers stand for all of them. *)
#[local] Set Warnings "-register-all".
Inductive json : Type :=
| JNull
| JBool (b : bool)
| JNum (n : Z)
| JStr (s : string)
| JArr (items : list json)
| JObj (fields : gmap string json).
#[local] Set Warnings "register-all".

(** The exceptions that can reach the top of a cell.  [LibError] stands for
    whatever a library raises from the inside (connection errors, GDAL
    errors, rendering errors); the notebook never inspects them. *)
Inductive exn : Type :=
| KeyError (key : string)
| NameError (name : string)
| TypeError
| ValueError (msg : string)
| IndexError
| JSONDecodeError
| EnvError
| LibError (lib msg : string).

Inductive result (A : Type) : Type :=
| Ok (a : A)
| Raise (e : exn).
Arguments Ok {A} a.
Arguments Raise {A} e.

(** [requests.Response]: the status line and the body. *)
Record Response : Type := mkResponse {
  status_code : Z;
  text : string
}.

(** [boto3.Session(aws_access_key_id=, aws_secret_access_key=,
    aws_session_token=, region_name=)]: a handle holding what it was given.
    The three credentials are whatever the decoded document holds under
    the keys, hence of type [json]. *)
Record Session : Type := mkSession {
  aws_access_key_id : json;
  aws_secret_access_key : json;
  aws_session_token : json;
  region_name : string
}.

(** [rasterio.session.AWSSession(session)] wraps the boto3 session. *)
Record AWSSession : Type := mkAWSSession { boto_session : Session }.

(** [rasterio.Env(session, **options)]: the session and the keyword options
    the environment is created with.  What the library derives from the
    session when the environment is entered (the credential options of
    GDAL) is a function of [env_session] and is not repeated in
    [env_options]. *)
Record RioEnv : Type := mkRioEnv {
  env_session : AWSSession;
  env_options : gmap string string
}.

(** An [xarray.DataArray]: named dimensions with their sizes (outermost
    first), the values in row-major order (the reflectances of an HLS band
    are 16-bit integers), and the coordinate variables. *)
Record DataArray : Type := mkDataArray {
  dims : list (string * nat);
  values : list Z;
  coords : list (string * list Z)
}.

(** The keyword arguments of [DataArray.hvplot.image]. *)
Record ImageOpts : Type := mkImageOpts {
  opt_x : string;
  opt_y : string;
  opt_cmap : string;
  opt_aspect : string
}.

(** ** The state of the Python process *)

(** The steps of the workflow, in the order of the notebook. *)
Inductive Step : Type :=
| Fetch | Build | Configure | Open | Reduce | Render | Release.

Global Instance Step_eq_dec : EqDecision Step.
Proof. solve_decision. Defined.

(** The library calls that act outside the kernel's namespace, with the
    arguments the notebook passes. *)
Inductive Event : Type :=
| HttpGet (url : string) (timeout : option Z)
| EnvEnter (env : RioEnv)
| RasterOpen (url : string) (active : list RioEnv)
| DrawImage (a : DataArray) (opts : ImageOpts)
| EnvExit.

(** The global names the cells assign.  A name that no cell has assigned
    yet is [None]; reading it raises [NameError]. *)
Record Globals : Type := mkGlobals {
  temp_creds_req : option json;
  session : option Session;
  rio_env : option RioEnv;
  s3_url : option string;
  da : option DataArray;
  da_red : option DataArray
}.

(** The process: the kernel's globals, GDAL's process-wide stack of entered
    environments (innermost first), and two histories kept for the proofs:
    the library calls made and the steps begun, oldest first. *)
Record Process : Type := mkProcess {
  globals : Globals;
  gdal_env : list RioEnv;
  trace : list Event;
  steps : list Step
}.

(** The outside world: what it answers may depend on everything that
    happened before. *)
Record Outside : Type := mkOutside {
  home : string;
  http_get : list Event -> string -> result Response;
  json_loads : string -> option json;
  raster_open : list Event -> list RioEnv -> string -> result DataArray;
  draw_image : list Event -> DataArray -> ImageOpts -> option exn
}.

(** ** The monad of cells *)

Definition py (A : Type) : Type := Process -> result A * Process.

Definition ret {A} (a : A) : py A := fun p => (Ok a, p).

Definition raise {A} (e : exn) : py A := fun p => (Raise e, p).

(** Sequencing as Python does it without [try]: an exception ends the
    computation where it is raised. *)
Definition bind {A B} (c : py A) (k : A -> py B) : py B :=
  fun p =>
    match c p with
    | (Ok a, p') => k a p'
    | (Raise e, p') => (Raise e, p')
    end.

Declare Scope py_scope.
Delimit Scope py_scope with py.
Bind Scope py_scope with py.
Notation "x <- c ;; k" := (bind c (fun x => k))
  (at level 62, c at next level, right associativity) : py_scope.
Notation "c ;;; k" := (bind c (fun _ => k))
  (at level 62, right associativity) : py_scope.
Open Scope py_scope.

Definition lift {A} (r : result A) : py A := fun p => (r, p).

(** The process after one more library call, one more step begun, an
    assignment to a global name, a change of the GDAL stack. *)
Definition logged (ev : Event) (p : Process) : Process :=
  mkProcess (globals p) (gdal_env p) (trace p ++ [ev]) (steps p).

Definition stepped (s : Step) (p : Process) : Process :=
  mkProcess (globals p) (gdal_env p) (trace p) (steps p ++ [s]).

Definition assigned (f : Globals -> Globals) (p : Process) : Process :=
  mkProcess (f (globals p)) (gdal_env p) (trace p) (steps p).

Definition with_gdal (g : list RioEnv) (p : Process) : Process :=
  mkProcess (globals p) g (trace p) (steps p).

Definition log (ev : Event) : py unit := fun p => (Ok tt, logged ev p).

Definition begin (s : Step) : py unit := fun p => (Ok tt, stepped s p).

Definition get_trace : py (list Event) := fun p => (Ok (trace p), p).

Definition get_gdal : py (list RioEnv) := fun p => (Ok (gdal_env p), p).

Definition put_gdal (g : list RioEnv) : py unit := fun p => (Ok tt, with_gdal g p).

Definition modify_globals (f : Globals -> Globals) : py unit :=
  fun p => (Ok tt, assigned f p).

(** Reading a global name. *)
Definition global {A} (name : string) (field : Globals -> option A) : py A :=
  fun p =>
    match field (globals p) with
    | Some v => (Ok v, p)
    | None => (Raise (NameError name), p)
    end.

(** Assigning a global name. *)
Definition set_temp_creds_req (v : json) (g : Globals) : Globals :=
  mkGlobals (Some v) (session g) (rio_env g) (s3_url g) (da g) (da_red g).

Definition set_session (v : Session) (g : Globals) : Globals :=
  mkGlobals (temp_creds_req g) (Some v) (rio_env g) (s3_url g) (da g) (da_red g).

Definition set_rio_env (v : RioEnv) (g : Globals) : Globals :=
  mkGlobals (temp_creds_req g) (session g) (Some v) (s3_url g) (da g) (da_red g).

Definition set_s3_url (v : string) (g : Globals) : Globals :=
  mkGlobals (temp_creds_req g) (session g) (rio_env g) (Some v) (da g) (da_red g).

Definition set_da (v : DataArray) (g : Globals) : Globals :=
  mkGlobals (temp_creds_req g) (session g) (rio_env g) (s3_url g) (Some v) (da_red g).

Definition set_da_red (v : DataArray) (g : Globals) : Globals :=
  mkGlobals (temp_creds_req g) (session g) (rio_env g) (s3_url g) (da g) (Some v).

(** Cells run one after the other; the first exception stops the run. *)
Fixpoint run_all (cells : list (py unit)) : py unit :=
  match cells with
  | [] => ret tt
  | c :: cells' => c ;;; run_all cells'
  end.

(** A kernel that has just started. *)
Definition fresh : Process :=
  mkProcess (mkGlobals None None None None None None) [] [] [].

(** ** Labeled arrays: indexing and [squeeze] *)

(** [DataArray.sizes[name]]. *)
Fixpoint size_of (name : string) (ds : list (string * nat)) : option nat :=
  match ds with
  | [] => None
  | (d, n) :: ds' => if decide (d = name) then Some n else size_of name ds'
  end.

Definition shape (a : DataArray) : list nat := map snd (dims a).

Definition cells_in (sh : list nat) : nat := foldr Nat.mul 1%nat sh.

(** The position of a multi-index in row-major order; [None] when an index
    is out of range or the number of indices is not the number of
    dimensions. *)
Fixpoint flat_index (sh idx : list nat) (acc : nat) : option nat :=
  match sh, idx with
  | [], [] => Some acc
  | n :: sh', i :: idx' =>
      if decide (i < n)%nat then flat_index sh' idx' (acc * n + i)%nat else None
  | _, _ => None
  end.

(** [a.values[idx]]. *)
Definition item (a : DataArray) (idx : list nat) : option Z :=
  match flat_index (shape a) idx 0%nat with
  | Some k => values a !! k
  | None => None
  end.

(** Selecting index [i] along an axis of size [n] that has [outer] blocks
    before it and [inner] cells after it, on row-major data. *)
Fixpoint take_axis (outer n inner i : nat) (data : list Z) : list Z :=
  match outer with
  | O => []
  | S outer' =>
      take inner (drop (i * inner) data)
        ++ take_axis outer' n inner i (drop (n * inner) data)
  end.

(** Splitting the dimensions at a name: those before it, its size, those
    after it. *)
Fixpoint split_dims (name : string) (ds : list (string * nat))
  : option (list (string * nat) * nat * list (string * nat)) :=
  match ds with
  | [] => None
  | (d, n) :: ds' =>
      if decide (d = name) then Some ([], n, ds')
      else match split_dims name ds' with
           | Some (before, m, after) => Some ((d, n) :: before, m, after)
           | None => None
           end
  end.

(** [DataArray.isel({name: 0}, drop=drop)]: the dimension goes away; its
    coordinate goes away too when [drop] is set, and stays as a scalar
    coordinate otherwise. *)
Definition isel0 (name : string) (drop_coord : bool) (a : DataArray)
  : result DataArray :=
  match split_dims name (dims a) with
  | None => Raise (KeyError name)
  | Some (before, n, after) =>
      if decide (0 < n)%nat then
        Ok (mkDataArray (before ++ after)
              (take_axis (cells_in (map snd before)) n (cells_in (map snd after))
                         0 (values a))
              (if drop_coord
               then filter (fun c => negb (String.eqb (fst c) name)) (coords a)
               else coords a))
      else Raise IndexError
  end.

(** [DataArray.squeeze(name, drop=drop)], as xarray does it: the named
    dimension must be known ([KeyError] from [sizes]) and must not be longer
    than one ([ValueError]); then index 0 is selected along it. *)
Definition squeeze (name : string) (drop_coord : bool) (a : DataArray)
  : result DataArray :=
  match size_of name (dims a) with
  | None => Raise (KeyError name)
  | Some n =>
      if decide (1 < n)%nat then
        Raise (ValueError "cannot select a dimension to squeeze out which has length greater than one")
      else isel0 name drop_coord a
  end.

(** ** The credential endpoints *)

Definition s3_cred_endpoint : gmap string string :=
  list_to_map [
    ("podaac", "https://archive.podaac.earthdata.nasa.gov/s3credentials");
    ("gesdisc", "https://data.gesdisc.earthdata.nasa.gov/s3credentials");
    ("lpdaac", "https://data.lpdaac.earthdatacloud.nasa.gov/s3credentials");
    ("ornldaac", "https://data.ornldaac.earthdata.nasa.gov/s3credentials");
    ("ghrcdaac", "https://data.ghrc.earthdata.nasa.gov/s3credentials")
  ].

(** The endpoint of the provider the notebook asks, and the object it reads:
    the red band of one HLS L30 granule. *)
Definition lpdaac_url : string :=
  "https://data.lpdaac.earthdatacloud.nasa.gov/s3credentials".

Definition hls_red_band : string :=
  "s3://lp-prod-protected/HLSL30.020/HLS.L30.T11SQA.2021333T181532.v2.0/HLS.L30.T11SQA.2021333T181532.v2.0.B04.tif".

Definition providers : list string :=
  ["podaac"; "gesdisc"; "lpdaac"; "ornldaac"; "ghrcdaac"].

Section Notebook.

Variable O : Outside.

(** [d[key]] on a [dict] of string keys. *)
Definition dict_getitem {V} (d : gmap string V) (key : string) : py V :=
  match d !! key with
  | Some v => ret v
  | None => raise (KeyError key)
  end.

(** [requests.get(url)]: one request; the response comes back whatever its
    status, only a failure of the transport raises.  The notebook passes no
    keyword argument, so no timeout. *)
Definition requests_get (url : string) (timeout : option Z) : py Response :=
  t <- get_trace ;;
  log (HttpGet url timeout) ;;;
  lift (http_get O t url).

(** [Response.json()]. *)
Definition Response_json (r : Response) : py json :=
  match json_loads O (text r) with
  | Some j => ret j
  | None => raise JSONDecodeError
  end.

(** [def get_temp_creds(provider):
       return requests.get(s3_cred_endpoint[provider]).json()] *)
Definition get_temp_creds (provider : string) : py json :=
  url <- dict_getitem s3_cred_endpoint provider ;;
  r <- requests_get url None ;;
  Response_json r.

(** [obj[key]] with a string key on a decoded document: only a [dict] can
    be indexed by a string. *)
Definition getitem (obj : json) (key : string) : py json :=
  match obj with
  | JObj d => dict_getitem d key
  | _ => raise TypeError
  end.

(** [userhome.rstrip('/')]. *)
Fixpoint rstrip_slash (s : string) : string :=
  match s with
  | EmptyString => EmptyString
  | String c s' =>
      match rstrip_slash s' with
      | EmptyString => if Ascii.eqb c "/"%char then EmptyString else String c EmptyString
      | t => String c t
      end
  end.

(** [os.path.expanduser]: a leading [~] alone or before [/] is replaced by
    the home directory without its trailing slashes, and an empty result by
    [/]; the notebook has no [~user] path, which is left as it is here. *)
Definition expanduser (path : string) : string :=
  match path with
  | String "~"%char EmptyString =>
      match rstrip_slash (home O) with
      | EmptyString => "/"
      | h => h
      end
  | String "~"%char (String "/"%char _ as rest) => rstrip_slash (home O) +:+ rest
  | _ => path
  end.

(** [Env.__enter__()]: the environment becomes the innermost active one.
    Only this is modelled: what the library copies from the session into
    GDAL's configuration while entering, and its failure on a session that
    it cannot use, are left to the library. *)
Definition Env_enter (env : RioEnv) : py RioEnv :=
  g <- get_gdal ;;
  log (EnvEnter env) ;;;
  put_gdal (env :: g) ;;;
  ret env.

(** [Env.__exit__()]: the innermost environment is left; there must be
    one. *)
Definition Env_exit (env : RioEnv) : py unit :=
  g <- get_gdal ;;
  match g with
  | [] => raise EnvError
  | _ :: g' => log EnvExit ;;; put_gdal g'
  end.

(** [rioxarray.open_rasterio(url)]: a remote read through GDAL, which takes
    its configuration from the environments that are active. *)
Definition open_rasterio (url : string) : py DataArray :=
  t <- get_trace ;;
  g <- get_gdal ;;
  log (RasterOpen url g) ;;;
  lift (raster_open O t g url).

(** [DataArray.hvplot.image(x=, y=, cmap=, aspect=)]. *)
Definition hvplot_image (a : DataArray) (opts : ImageOpts) : py unit :=
  t <- get_trace ;;
  log (DrawImage a opts) ;;;
  match draw_image O t a opts with
  | None => ret tt
  | Some e => raise e
  end.

(** *** The cells *)

(** [temp_creds_req = get_temp_creds('lpdaac')] *)
Definition cell_fetch : py unit :=
  begin Fetch ;;;
  v <- get_temp_creds "lpdaac" ;;
  modify_globals (set_temp_creds_req v).

(** [session = boto3.Session(aws_access_key_id=temp_creds_req['accessKeyId'],
                             aws_secret_access_key=temp_creds_req['secretAccessKey'],
                             aws_session_token=temp_creds_req['sessionToken'],
                             region_name='us-west-2')] *)
Definition cell_session : py unit :=
  begin Build ;;;
  c1 <- global "temp_creds_req" temp_creds_req ;;
  key <- getitem c1 "accessKeyId" ;;
  c2 <- global "temp_creds_req" temp_creds_req ;;
  secret <- getitem c2 "secretAccessKey" ;;
  c3 <- global "temp_creds_req" temp_creds_req ;;
  token <- getitem c3 "sessionToken" ;;
  modify_globals (set_session (mkSession key secret token "us-west-2")).

(** The keyword arguments of [rio.Env] in the notebook. *)
Definition gdal_options : gmap string string :=
  list_to_map [
    ("GDAL_DISABLE_READDIR_ON_OPEN", "TRUE");
    ("GDAL_HTTP_COOKIEFILE", expanduser "~/cookies.txt");
    ("GDAL_HTTP_COOKIEJAR", expanduser "~/cookies.txt")
  ].

(** [rio_env = rio.Env(AWSSession(session), GDAL_DISABLE_READDIR_ON_OPEN='TRUE',
                       GDAL_HTTP_COOKIEFILE=os.path.expanduser('~/cookies.txt'),
                       GDAL_HTTP_COOKIEJAR=os.path.expanduser('~/cookies.txt'))
     rio_env.__enter__()] *)
Definition cell_env : py unit :=
  begin Configure ;;;
  s <- global "session" session ;;
  modify_globals (set_rio_env (mkRioEnv (mkAWSSession s) gdal_options)) ;;;
  env <- global "rio_env" rio_env ;;
  Env_enter env ;;;
  ret tt.

(** [s3_url = 's3://lp-prod-protected/...B04.tif'] *)
Definition cell_url : py unit :=
  modify_globals (set_s3_url hls_red_band).

(** [da = rioxarray.open_rasterio(s3_url)] *)
Definition cell_open : py unit :=
  begin Open ;;;
  url <- global "s3_url" s3_url ;;
  a <- open_rasterio url ;;
  modify_globals (set_da a).

(** [da_red = da.squeeze('band', drop=True)] *)
Definition cell_reduce : py unit :=
  begin Reduce ;;;
  a <- global "da" da ;;
  r <- lift (squeeze "band" true a) ;;
  modify_globals (set_da_red r).

Definition image_opts : ImageOpts := mkImageOpts "x" "y" "gray" "equal".

(** [da_red.hvplot.image(x='x', y='y', cmap='gray', aspect='equal')] *)
Definition cell_plot : py unit :=
  begin Render ;;;
  a <- global "da_red" da_red ;;
  hvplot_image a image_opts.

(** [rio_env.__exit__()] *)
Definition cell_exit : py unit :=
  begin Release ;;;
  env <- global "rio_env" rio_env ;;
  Env_exit env.

(** The cells of the workflow, top to bottom.  The three code cells before
    them only bind names (the imports, the table [s3_cred_endpoint], the
    definition of [get_temp_creds]) and are not cells of this list. *)
Definition notebook : list (py unit) :=
  [cell_fetch; cell_session; cell_env; cell_url;
   cell_open; cell_reduce; cell_plot; cell_exit].

Definition workflow : py unit := run_all notebook.

End Notebook.


(** ** The shape of a run *)

(** What the world's answer to the request makes of the call. *)
Definition decoded (O : Outside) (answer : result Response) : result json :=
  match answer with
  | Ok r =>
      match json_loads O (text r) with
      | Some j => Ok j
      | None => Raise JSONDecodeError
      end
  | Raise e => Raise e
  end.

(** What a run from [p] to [p'] added to the two histories. *)
Definition begun (p p' : Process) : list Step :=
  drop (length (steps p)) (steps p').

Definition called (p p' : Process) : list Event :=
  drop (length (trace p)) (trace p').



(** The session that the three subscriptions of the session cell lead to,
    as a function of what the global [temp_creds_req] holds. *)
Definition credentials (creds : option json) : result Session :=
  match creds with
  | None => Raise (NameError "temp_creds_req")
  | Some (JObj d) =>
      match d !! "accessKeyId" with
      | None => Raise (KeyError "accessKeyId")
      | Some key =>
          match d !! "secretAccessKey" with
          | None => Raise (KeyError "secretAccessKey")
          | Some secret =>
              match d !! "sessionToken" with
              | None => Raise (KeyError "sessionToken")
              | Some token => Ok (mkSession key secret token "us-west-2")
              end
          end
      end
  | Some _ => Raise TypeError
  end.

Section Shape.

Variable O : Outside.
Variable p : Process.

(** The environment that the configuration cell creates around a session. *)
Definition the_env (s : Session) : RioEnv :=
  mkRioEnv (mkAWSSession s) (gdal_options O).

(** The process at the points where a run started in [p] can be:
    in a step, after the library call of the step has been made. *)
Definition in_fetch : Process :=
  logged (HttpGet lpdaac_url None) (stepped Fetch p).

Definition in_build (j : json) : Process :=
  stepped Build (assigned (set_temp_creds_req j) in_fetch).

Definition configured (j : json) (s : Session) : Process :=
  with_gdal (the_env s :: gdal_env p)
    (logged (EnvEnter (the_env s))
       (assigned (set_rio_env (the_env s))
          (stepped Configure (assigned (set_session s) (in_build j))))).

Definition in_open (j : json) (s : Session) : Process :=
  logged (RasterOpen hls_red_band (the_env s :: gdal_env p))
    (stepped Open (assigned (set_s3_url hls_red_band) (configured j s))).

Definition in_reduce (j : json) (s : Session) (a : DataArray) : Process :=
  stepped Reduce (assigned (set_da a) (in_open j s)).

Definition in_render (j : json) (s : Session) (a r : DataArray) : Process :=
  logged (DrawImage r image_opts)
    (stepped Render (assigned (set_da_red r) (in_reduce j s a))).

Definition released (j : json) (s : Session) (a r : DataArray) : Process :=
  with_gdal (gdal_env p) (logged EnvExit (stepped Release (in_render j s a r))).

(** The runs of the workflow from [p]: where a run stops, with what, and
    what the outside world answered on the way. *)
Inductive Run : result unit -> Process -> Prop :=
| stop_fetch e :
    decoded O (http_get O (trace p) lpdaac_url) = Raise e ->
    Run (Raise e) in_fetch
| stop_build j e :
    decoded O (http_get O (trace p) lpdaac_url) = Ok j ->
    credentials (Some j) = Raise e ->
    Run (Raise e) (in_build j)
| stop_open j s e :
    decoded O (http_get O (trace p) lpdaac_url) = Ok j ->
    credentials (Some j) = Ok s ->
    raster_open O (trace (configured j s)) (the_env s :: gdal_env p) hls_red_band
      = Raise e ->
    Run (Raise e) (in_open j s)
| stop_reduce j s a e :
    decoded O (http_get O (trace p) lpdaac_url) = Ok j ->
    credentials (Some j) = Ok s ->
    raster_open O (trace (configured j s)) (the_env s :: gdal_env p) hls_red_band
      = Ok a ->
    squeeze "band" true a = Raise e ->
    Run (Raise e) (in_reduce j s a)
| stop_render j s a r e :
    decoded O (http_get O (trace p) lpdaac_url) = Ok j ->
    credentials (Some j) = Ok s ->
    raster_open O (trace (configured j s)) (the_env s :: gdal_env p) hls_red_band
      = Ok a ->
    squeeze "band" true a = Ok r ->
    draw_image O (trace (in_reduce j s a)) r image_opts = Some e ->
    Run (Raise e) (in_render j s a r)
| finished j s a r :
    decoded O (http_get O (trace p) lpdaac_url) = Ok j ->
    credentials (Some j) = Ok s ->
    raster_open O (trace (configured j s)) (the_env s :: gdal_env p) hls_red_band
      = Ok a ->
    squeeze "band" true a = Ok r ->
    draw_image O (trace (in_reduce j s a)) r image_opts = None ->
    Run (Ok tt) (released j s a r).

End Shape.

(** An array is well formed when it holds one value for each of its cells. *)
Definition well_formed (a : DataArray) : Prop :=
  length (values a) = cells_in (shape a).




(** ** A sample outside world, for running the notebook *)

Module Sample.

(** JSON text: a quoted string and an object member. *)
Definition quoted (s : string) : string :=
  String (ascii_of_nat 34) s +:+ String (ascii_of_nat 34) "".

Definition member (key value : string) : string :=
  quoted key +:+ ": " +:+ quoted value.

Definition creds_doc : string :=
  "{" +:+ member "accessKeyId" "AKIA" +:+ ", "
      +:+ member "secretAccessKey" "wJal" +:+ ", "
      +:+ member "sessionToken" "FwoG" +:+ ", "
      +:+ member "expiration" "2022-03-01 12:00:00+00:00" +:+ "}".

Definition creds : json :=
  JObj (list_to_map [
    ("accessKeyId", JStr "AKIA");
    ("secretAccessKey", JStr "wJal");
    ("sessionToken", JStr "FwoG");
    ("expiration", JStr "2022-03-01 12:00:00+00:00")
  ]).

Definition denied_doc : string := "{" +:+ member "message" "Unauthorized" +:+ "}".

Definition denied : json := JObj (list_to_map [("message", JStr "Unauthorized")]).

(** A decoder that knows the two documents above and rejects the rest. *)
Definition loads (body : string) : option json :=
  if decide (body = creds_doc) then Some creds
  else if decide (body = denied_doc) then Some denied
  else None.

(** One band of two rows and three columns. *)
Definition raster : DataArray :=
  mkDataArray [("band", 1); ("y", 2); ("x", 3)]%nat
              [11; 12; 13; 21; 22; 23]
              [("band", [1]); ("y", [40; 10]); ("x", [5; 35; 65])].

(** Three bands of one row and two columns. *)
Definition rgb : DataArray :=
  mkDataArray [("band", 3); ("y", 1); ("x", 2)]%nat
              [1; 2; 3; 4; 5; 6]
              [("band", [1; 2; 3]); ("y", [40]); ("x", [5; 35])].

Definition world (status : Z) (body : string) (object : DataArray) : Outside :=
  mkOutside "/home/jovyan"
    (fun _ _ => Ok (mkResponse status body))
    loads
    (fun _ active _ =>
       match active with
       | [] => Raise (LibError "rasterio" "access denied")
       | _ => Ok object
       end)
    (fun _ a _ =>
       if decide (length (dims a) = 2%nat) then None
       else Some (LibError "hvplot" "not an image")).

Definition good : Outside := world 200 creds_doc raster.

(** No network. *)
Definition offline : Outside :=
  mkOutside "/home/jovyan"
    (fun _ _ => Raise (LibError "requests" "ConnectionError"))
    loads
    (fun _ _ _ => Raise (LibError "rasterio" "RasterioIOError"))
    (fun _ _ _ => None).

(** A kernel in which [da_red] has been assigned. *)
Definition reduced : Process :=
  assigned (set_da_red (mkDataArray [("y", 2); ("x", 3)]%nat
                          [11; 12; 13; 21; 22; 23]
                          [("y", [40; 10]); ("x", [5; 35; 65])])) fresh.

End Sample.

(** * Properties *)

(** ** The credential fetcher *)

(** The endpoint table has the five providers as its keys. *)
Lemma endpoint_known (provider : string) :
  provider ∈ providers -> is_Some (s3_cred_endpoint !! provider).
Proof.
  unfold providers. rewrite !elem_of_cons.
  intros [->|[->|[->|[->|[->|H]]]]]; try (eexists; reflexivity).
  by apply elem_of_nil in H.
Qed.

Lemma endpoint_unknown (provider : string) :
  provider ∉ providers -> s3_cred_endpoint !! provider = None.
Proof.
  intros H. unfold s3_cred_endpoint.
  apply not_elem_of_list_to_map_1. exact H.
Qed.

Lemma endpoint_keys (provider : string) :
  is_Some (s3_cred_endpoint !! provider) <-> provider ∈ providers.
Proof.
  split; [|apply endpoint_known].
  intros [url H]. destruct (decide (provider ∈ providers)) as [|Hn]; [done|].
  rewrite (endpoint_unknown _ Hn) in H. discriminate.
Qed.

Lemma lpdaac_endpoint : s3_cred_endpoint !! "lpdaac" = Some lpdaac_url.
Proof. reflexivity. Qed.

(** [get_temp_creds] in one equation. *)
Lemma get_temp_creds_run (O : Outside) (provider : string) (p : Process) :
  get_temp_creds O provider p =
  match s3_cred_endpoint !! provider with
  | None => (Raise (KeyError provider), p)
  | Some url =>
      (decoded O (http_get O (trace p) url), logged (HttpGet url None) p)
  end.
Proof.
  unfold get_temp_creds, dict_getitem.
  destruct (s3_cred_endpoint !! provider) as [url|]; [|reflexivity].
  cbv [bind ret requests_get get_trace log lift Response_json decoded logged].
  cbn [trace globals gdal_env steps].
  destruct (http_get O (trace p) url) as [r|e]; [|reflexivity].
  destruct (json_loads O (text r)); reflexivity.
Qed.

(** C10: a provider string that is not one of the five keys makes
    [get_temp_creds] raise [KeyError] on the table lookup; the process is
    left exactly as it was, so no request has been issued and nothing has
    happened outside. *)
Theorem get_temp_creds_unknown_provider
    (O : Outside) (provider : string) (p : Process) :
  provider ∉ providers ->
  get_temp_creds O provider p = (Raise (KeyError provider), p).
Proof.
  intros H. rewrite get_temp_creds_run, (endpoint_unknown _ H). reflexivity.
Qed.

Lemma get_temp_creds_unknown_provider_witness :
  ("nsidc" ∉ providers) /\
  get_temp_creds Sample.good "nsidc" fresh = (Raise (KeyError "nsidc"), fresh).
Proof.
  assert (H : "nsidc" ∉ providers) by (apply (bool_decide_unpack _); vm_compute; exact I).
  split; [exact H|].
  apply (get_temp_creds_unknown_provider Sample.good "nsidc" fresh H).
Defined.

(** C4: the provider key selects one URL of the table, whose keys are the
    five providers and whose URLs differ from key to key; [get_temp_creds]
    issues one GET to that URL, and what it returns is the body of the
    response decoded as JSON. *)
Theorem get_temp_creds_fetches
    (O : Outside) (provider : string) (p : Process) :
  provider ∈ providers ->
  (forall k, is_Some (s3_cred_endpoint !! k) <-> k ∈ providers) /\
  (forall k1 k2 u, s3_cred_endpoint !! k1 = Some u ->
                   s3_cred_endpoint !! k2 = Some u -> k1 = k2) /\
  exists url,
    s3_cred_endpoint !! provider = Some url /\
    snd (get_temp_creds O provider p) = logged (HttpGet url None) p /\
    forall r j,
      http_get O (trace p) url = Ok r ->
      json_loads O (text r) = Some j ->
      fst (get_temp_creds O provider p) = Ok j.
Proof.
  intros Hin. split; [exact endpoint_keys|]. split.
  - intros k1 k2 u H1 H2.
    assert (I1 : k1 ∈ providers) by (apply endpoint_keys; eauto).
    assert (I2 : k2 ∈ providers) by (apply endpoint_keys; eauto).
    unfold providers in I1, I2. rewrite !elem_of_cons in I1, I2.
    destruct I1 as [->|[->|[->|[->|[->|I1]]]]]; [..|by apply elem_of_nil in I1];
    destruct I2 as [->|[->|[->|[->|[->|I2]]]]]; try reflexivity;
      try (by apply elem_of_nil in I2);
      vm_compute in H1, H2; congruence.
  - destruct (endpoint_known _ Hin) as [url Hurl]. exists url.
    rewrite get_temp_creds_run, Hurl. cbn [fst snd].
    split; [reflexivity|]. split; [reflexivity|].
    intros r j Hr Hj. rewrite Hr. cbn [decoded]. rewrite Hj. reflexivity.
Qed.

Lemma get_temp_creds_fetches_witness :
  exists url,
    s3_cred_endpoint !! "lpdaac" = Some url /\
    snd (get_temp_creds Sample.good "lpdaac" fresh) = logged (HttpGet url None) fresh /\
    forall r j,
      http_get Sample.good (trace fresh) url = Ok r ->
      json_loads Sample.good (text r) = Some j ->
      fst (get_temp_creds Sample.good "lpdaac" fresh) = Ok j.
Proof.
  assert (H : "lpdaac" ∈ providers) by (apply (bool_decide_unpack _); vm_compute; exact I).
  exact (proj2 (proj2 (get_temp_creds_fetches Sample.good "lpdaac" fresh H))).
Defined.

(** C1, as the code has it: for each of the five providers,
    [get_temp_creds] makes one request and leaves the rest of the process
    untouched (nothing is retried, stored or timed); a failure of the
    transport and a body that is not JSON reach the caller as exceptions;
    a body that is JSON is returned decoded whatever the status of the
    response, so a non-200 response is not an error by itself; a second
    call makes a second request. *)
Theorem get_temp_creds_failures
    (O : Outside) (provider : string) (p : Process) :
  provider ∈ providers ->
  exists url,
    s3_cred_endpoint !! provider = Some url /\
    snd (get_temp_creds O provider p) = logged (HttpGet url None) p /\
    (forall e, http_get O (trace p) url = Raise e ->
               fst (get_temp_creds O provider p) = Raise e) /\
    (forall r, http_get O (trace p) url = Ok r ->
               json_loads O (text r) = None ->
               fst (get_temp_creds O provider p) = Raise JSONDecodeError) /\
    (forall r j, http_get O (trace p) url = Ok r ->
                 json_loads O (text r) = Some j ->
                 fst (get_temp_creds O provider p) = Ok j) /\
    snd (get_temp_creds O provider (snd (get_temp_creds O provider p)))
      = logged (HttpGet url None) (logged (HttpGet url None) p).
Proof.
  intros Hin. destruct (endpoint_known _ Hin) as [url Hurl]. exists url.
  rewrite !get_temp_creds_run, Hurl. cbn [fst snd].
  split; [reflexivity|]. split; [reflexivity|]. split; [|split; [|split]].
  - intros e ->. reflexivity.
  - intros r -> Hj. cbn [decoded]. rewrite Hj. reflexivity.
  - intros r j -> Hj. cbn [decoded]. rewrite Hj. reflexivity.
  - reflexivity.
Qed.

Lemma get_temp_creds_failures_witness :
  exists url,
    s3_cred_endpoint !! "podaac" = Some url /\
    snd (get_temp_creds Sample.good "podaac" fresh) = logged (HttpGet url None) fresh /\
    (forall e, http_get Sample.good (trace fresh) url = Raise e ->
               fst (get_temp_creds Sample.good "podaac" fresh) = Raise e) /\
    (forall r, http_get Sample.good (trace fresh) url = Ok r ->
               json_loads Sample.good (text r) = None ->
               fst (get_temp_creds Sample.good "podaac" fresh) = Raise JSONDecodeError) /\
    (forall r j, http_get Sample.good (trace fresh) url = Ok r ->
                 json_loads Sample.good (text r) = Some j ->
                 fst (get_temp_creds Sample.good "podaac" fresh) = Ok j) /\
    snd (get_temp_creds Sample.good "podaac"
           (snd (get_temp_creds Sample.good "podaac" fresh)))
      = logged (HttpGet url None) (logged (HttpGet url None) fresh).
Proof.
  assert (H : "podaac" ∈ providers) by (apply (bool_decide_unpack _); vm_compute; exact I).
  exact (get_temp_creds_failures Sample.good "podaac" fresh H).
Defined.

(** C1 as stated fails: the endpoint answers 401 with a JSON body, and
    [get_temp_creds('lpdaac')] returns the decoded body; nothing is
    raised. *)
Lemma get_temp_creds_non200_not_raised :
  let O := Sample.world 401 Sample.denied_doc Sample.raster in
  ("lpdaac" ∈ providers) /\
  http_get O (trace fresh) "https://data.lpdaac.earthdatacloud.nasa.gov/s3credentials"
    = Ok (mkResponse 401 Sample.denied_doc) /\
  status_code (mkResponse 401 Sample.denied_doc) <> 200 /\
  fst (get_temp_creds O "lpdaac" fresh) = Ok Sample.denied /\
  ~ (exists e, fst (get_temp_creds O "lpdaac" fresh) = Raise e).
Proof.
  cbv zeta. split; [apply (bool_decide_unpack _); vm_compute; exact I|].
  split; [reflexivity|]. split; [discriminate|].
  assert (E : fst (get_temp_creds (Sample.world 401 Sample.denied_doc Sample.raster)
                     "lpdaac" fresh) = Ok Sample.denied) by (vm_compute; reflexivity).
  split; [exact E|]. intros [e He]. rewrite E in He. discriminate.
Qed.


(** ** The cells, one by one *)

Ltac run_cell :=
  cbv [bind ret raise lift log begin get_trace get_gdal put_gdal
       modify_globals global];
  cbn [globals gdal_env trace steps logged stepped assigned with_gdal
       temp_creds_req session rio_env s3_url da da_red
       set_temp_creds_req set_session set_rio_env set_s3_url set_da set_da_red].

Lemma cell_fetch_run (O : Outside) (p : Process) :
  cell_fetch O p =
  match decoded O (http_get O (trace p) lpdaac_url) with
  | Ok j => (Ok tt, assigned (set_temp_creds_req j) (in_fetch p))
  | Raise e => (Raise e, in_fetch p)
  end.
Proof.
  unfold cell_fetch, bind at 1, begin. unfold bind.
  rewrite get_temp_creds_run, lpdaac_endpoint. fold lpdaac_url.
  cbn [trace stepped].
  destruct (decoded O (http_get O (trace p) lpdaac_url)); reflexivity.
Qed.

Lemma cell_session_run (q : Process) :
  cell_session q =
  match credentials (temp_creds_req (globals q)) with
  | Ok s => (Ok tt, assigned (set_session s) (stepped Build q))
  | Raise e => (Raise e, stepped Build q)
  end.
Proof.
  unfold cell_session, credentials. run_cell.
  destruct (temp_creds_req (globals q)) as [c|] eqn:E; [|reflexivity].
  destruct c as [| | | | |d]; try reflexivity.
  cbv [getitem dict_getitem ret raise].
  destruct (d !! "accessKeyId"); [|reflexivity].
  run_cell. rewrite E.
  destruct (d !! "secretAccessKey"); [|reflexivity].
  run_cell. rewrite E.
  destruct (d !! "sessionToken"); reflexivity.
Qed.

Lemma cell_env_run (O : Outside) (q : Process) :
  cell_env O q =
  match session (globals q) with
  | Some s =>
      (Ok tt, with_gdal (the_env O s :: gdal_env q)
                (logged (EnvEnter (the_env O s))
                   (assigned (set_rio_env (the_env O s)) (stepped Configure q))))
  | None => (Raise (NameError "session"), stepped Configure q)
  end.
Proof.
  unfold cell_env, Env_enter, the_env. run_cell.
  destruct (session (globals q)); [|reflexivity].
  run_cell. reflexivity.
Qed.

Lemma cell_url_run (q : Process) :
  cell_url q = (Ok tt, assigned (set_s3_url hls_red_band) q).
Proof. reflexivity. Qed.

Lemma cell_open_run (O : Outside) (q : Process) :
  cell_open O q =
  match s3_url (globals q) with
  | Some url =>
      match raster_open O (trace q) (gdal_env q) url with
      | Ok a => (Ok tt, assigned (set_da a)
                          (logged (RasterOpen url (gdal_env q)) (stepped Open q)))
      | Raise e => (Raise e, logged (RasterOpen url (gdal_env q)) (stepped Open q))
      end
  | None => (Raise (NameError "s3_url"), stepped Open q)
  end.
Proof.
  unfold cell_open, open_rasterio. run_cell.
  destruct (s3_url (globals q)) as [url|]; [|reflexivity].
  run_cell. destruct (raster_open O (trace q) (gdal_env q) url); reflexivity.
Qed.

Lemma cell_reduce_run (q : Process) :
  cell_reduce q =
  match da (globals q) with
  | Some a =>
      match squeeze "band" true a with
      | Ok r => (Ok tt, assigned (set_da_red r) (stepped Reduce q))
      | Raise e => (Raise e, stepped Reduce q)
      end
  | None => (Raise (NameError "da"), stepped Reduce q)
  end.
Proof.
  unfold cell_reduce. run_cell.
  destruct (da (globals q)) as [a|]; [|reflexivity].
  run_cell. destruct (squeeze "band" true a); reflexivity.
Qed.

Lemma cell_plot_run (O : Outside) (q : Process) :
  cell_plot O q =
  match da_red (globals q) with
  | Some a =>
      (match draw_image O (trace q) a image_opts with
       | None => Ok tt
       | Some e => Raise e
       end, logged (DrawImage a image_opts) (stepped Render q))
  | None => (Raise (NameError "da_red"), stepped Render q)
  end.
Proof.
  unfold cell_plot, hvplot_image. run_cell.
  destruct (da_red (globals q)) as [a|]; [|reflexivity].
  run_cell. destruct (draw_image O (trace q) a image_opts); reflexivity.
Qed.

Lemma cell_exit_run (q : Process) :
  cell_exit q =
  match rio_env (globals q) with
  | Some _ =>
      match gdal_env q with
      | _ :: g => (Ok tt, with_gdal g (logged EnvExit (stepped Release q)))
      | [] => (Raise EnvError, stepped Release q)
      end
  | None => (Raise (NameError "rio_env"), stepped Release q)
  end.
Proof.
  unfold cell_exit, Env_exit. run_cell.
  destruct (rio_env (globals q)); [|reflexivity].
  run_cell. destruct (gdal_env q); reflexivity.
Qed.

(** ** The workflow *)

Ltac project :=
  cbn [fst snd globals gdal_env trace steps logged stepped assigned with_gdal
       temp_creds_req session rio_env s3_url da da_red
       set_temp_creds_req set_session set_rio_env set_s3_url set_da set_da_red].

(** Every run of the workflow is one of the six runs of [Run]. *)
Lemma workflow_runs (O : Outside) (p : Process) :
  Run O p (fst (workflow O p)) (snd (workflow O p)).
Proof.
  unfold workflow, notebook. cbn [run_all]. unfold bind.
  rewrite cell_fetch_run.
  destruct (decoded O (http_get O (trace p) lpdaac_url)) as [j|e] eqn:Hj;
    [|apply stop_fetch; exact Hj].
  rewrite cell_session_run. project.
  destruct (credentials (Some j)) as [s|e] eqn:Hs;
    [|exact (stop_build O p j e Hj Hs)].
  rewrite cell_env_run. project.
  rewrite cell_url_run, cell_open_run. project.
  destruct (raster_open O _ _ hls_red_band) as [a|e] eqn:Ha;
    [|exact (stop_open O p j s e Hj Hs Ha)].
  rewrite cell_reduce_run. project.
  destruct (squeeze "band" true a) as [r|e] eqn:Hr;
    [|exact (stop_reduce O p j s a e Hj Hs Ha Hr)].
  rewrite cell_plot_run. project.
  destruct (draw_image O _ r image_opts) as [e|] eqn:Hd;
    [exact (stop_render O p j s a r e Hj Hs Ha Hr Hd)|].
  rewrite cell_exit_run. project.
  exact (finished O p j s a r Hj Hs Ha Hr Hd).
Qed.

(** ** The dimension reducer *)

Lemma flat_index_bound (sh idx : list nat) (acc k bound : nat) :
  flat_index sh idx acc = Some k ->
  (acc < bound)%nat ->
  (k < bound * cells_in sh)%nat.
Proof.
  revert idx acc bound.
  induction sh as [|n sh IH]; intros [|i idx] acc bound H Hacc;
    cbn [flat_index] in H; try discriminate.
  - injection H as <-. cbn. lia.
  - destruct (decide (i < n)%nat) as [Hi|]; [|discriminate].
    apply (IH _ _ (bound * n)%nat) in H; [|nia].
    cbn [cells_in foldr]. unfold cells_in in H. nia.
Qed.

Lemma flat_index_leading (sh idx : list nat) :
  flat_index (1%nat :: sh) (0%nat :: idx) 0 = flat_index sh idx 0.
Proof.
  cbn [flat_index]. destruct (decide (0 < 1)%nat); [reflexivity|lia].
Qed.

(** Squeezing a leading dimension of size 1 keeps the first block of the
    data, which is all of it. *)
Lemma squeeze_leading (a : DataArray) (name : string) (rest : list (string * nat)) :
  dims a = (name, 1%nat) :: rest ->
  squeeze name true a
  = Ok (mkDataArray rest
          (take (cells_in (map snd rest)) (values a))
          (filter (fun c => negb (String.eqb (fst c) name)) (coords a))).
Proof.
  intros Hd. unfold squeeze, isel0. rewrite Hd. cbn [size_of split_dims].
  destruct (decide (name = name)) as [_|]; [|congruence].
  destruct (decide (1 < 1)%nat); [lia|].
  destruct (decide (0 < 1)%nat); [|lia].
  cbn [app map cells_in foldr take_axis].
  rewrite app_nil_r, Nat.mul_0_l, drop_0. reflexivity.
Qed.

(** Squeezing the band of a raster of one band over two dimensions. *)
Lemma squeeze_one_band (a : DataArray) (d1 d2 : string) (n1 n2 : nat) :
  dims a = [("band", 1%nat); (d1, n1); (d2, n2)] ->
  exists r,
    squeeze "band" true a = Ok r /\
    dims r = [(d1, n1); (d2, n2)] /\
    (forall c, c ∈ coords r -> fst c <> "band") /\
    (forall i j, item r [i; j] = item a [0%nat; i; j]).
Proof.
  intros Hd. eexists. split; [apply (squeeze_leading _ _ _ Hd)|].
  cbn [dims coords]. split; [reflexivity|]. split.
  - intros c Hc. apply list_elem_of_filter in Hc as [Hc _].
    apply negb_prop_elim in Hc. intros E. apply Hc.
    apply Is_true_true, String.eqb_eq, E.
  - intros i j. unfold item, shape. cbn [dims values].
    rewrite Hd. cbn [map snd]. rewrite flat_index_leading.
    destruct (flat_index [n1; n2] [i; j] 0) as [k|] eqn:Hk; [|reflexivity].
    apply lookup_take_lt.
    pose proof (flat_index_bound _ _ _ _ 1%nat Hk ltac:(lia)) as B.
    lia.
Qed.

(** A dimension of size 1 that is not the first one, and a longer one. *)
Example squeeze_inner_dimension :
  squeeze "y" true Sample.rgb
  = Ok (mkDataArray [("band", 3); ("x", 2)]%nat [1; 2; 3; 4; 5; 6]
          [("band", [1; 2; 3]); ("x", [5; 35])]).
Proof. reflexivity. Qed.

Example squeeze_long_dimension :
  squeeze "band" true Sample.rgb
  = Raise (ValueError "cannot select a dimension to squeeze out which has length greater than one").
Proof. reflexivity. Qed.



(** ** Order of the steps *)

Ltac histories :=
  unfold begun, called, released, in_render, in_reduce, in_open, configured,
         in_build, in_fetch;
  project; rewrite <- ?app_assoc; cbn [app]; rewrite ?drop_app_length.

Ltac histories_in H :=
  unfold begun, called, released, in_render, in_reduce, in_open, configured,
         in_build, in_fetch in H;
  cbn [fst snd globals gdal_env trace steps logged stepped assigned with_gdal] in H;
  rewrite <- ?app_assoc in H; cbn [app] in H; rewrite ?drop_app_length in H.











(** ** Release of the environment *)

Ltac members :=
  rewrite ?elem_of_cons, ?elem_of_nil; intuition (try discriminate; try congruence).

(** C2: the call of [__exit__] is made in the runs that end without an
    exception and in no other; in those it is the last call and the GDAL
    environment is as it was before the run.  In a run that ends with an
    exception after the opening of the raster has begun, no [__exit__] is
    called and the environment of the notebook is still the innermost
    active one. *)
Theorem env_released_only_at_end (O : Outside) (p : Process) :
  let r := fst (workflow O p) in
  let p' := snd (workflow O p) in
  (EnvExit ∈ called p p' <-> r = Ok tt) /\
  (r = Ok tt ->
     last (called p p') = Some EnvExit /\ last (begun p p') = Some Release /\
     gdal_env p' = gdal_env p) /\
  (forall e, r = Raise e -> Open ∈ begun p p' ->
     (EnvExit ∉ called p p') /\ (Release ∉ begun p p') /\
     exists env, rio_env (globals p') = Some env /\
                 gdal_env p' = env :: gdal_env p).
Proof.
  cbv zeta. pose proof (workflow_runs O p) as R.
  destruct (workflow O p) as [r p']. cbn [fst snd] in *.
  destruct R; histories.
  all: split; [members|].
  all: split; [first [discriminate | intros _; repeat split; reflexivity]|].
  all: intros e' He' Hopen; try discriminate.
  all: split; [members|]; split; [members|].
  all: try (exfalso; revert Hopen; members; fail).
  all: eexists; split; reflexivity.
Qed.

Lemma env_released_only_at_end_witness :
  let O := Sample.world 200 Sample.creds_doc Sample.rgb in
  let r := fst (workflow O fresh) in
  let p' := snd (workflow O fresh) in
  r = Raise (ValueError "cannot select a dimension to squeeze out which has length greater than one") /\
  (Open ∈ begun fresh p') /\
  (EnvExit ∉ called fresh p') /\ (Release ∉ begun fresh p') /\
  exists env, rio_env (globals p') = Some env /\
              gdal_env p' = env :: gdal_env fresh.
Proof.
  cbv zeta.
  assert (Hr : fst (workflow (Sample.world 200 Sample.creds_doc Sample.rgb) fresh)
               = Raise (ValueError "cannot select a dimension to squeeze out which has length greater than one"))
    by (vm_compute; reflexivity).
  assert (Ho : Open ∈ begun fresh
                 (snd (workflow (Sample.world 200 Sample.creds_doc Sample.rgb) fresh)))
    by (apply (bool_decide_unpack _); vm_compute; exact I).
  split; [exact Hr|]. split; [exact Ho|].
  exact (proj2 (proj2 (env_released_only_at_end
                         (Sample.world 200 Sample.creds_doc Sample.rgb) fresh))
           _ Hr Ho).
Defined.

(** ** Timeouts *)




(** ** The session *)

(** C5: once the configuration step has begun, the global [session] is the
    session made of the three values that the fetched document holds under
    [accessKeyId], [secretAccessKey] and [sessionToken], with the region
    [us-west-2]; it is so at the end of the run, whatever the later steps
    did; and each of the later cells, run in any process, leaves the global
    as it finds it. *)
Theorem session_built_once (O : Outside) (p : Process) :
  let p' := snd (workflow O p) in
  (Configure ∈ begun p p' ->
     exists d key secret token,
       decoded O (http_get O (trace p) lpdaac_url) = Ok (JObj d) /\
       d !! "accessKeyId" = Some key /\
       d !! "secretAccessKey" = Some secret /\
       d !! "sessionToken" = Some token /\
       session (globals p') = Some (mkSession key secret token "us-west-2")) /\
  (forall q,
     session (globals (snd (cell_env O q))) = session (globals q) /\
     session (globals (snd (cell_url q))) = session (globals q) /\
     session (globals (snd (cell_open O q))) = session (globals q) /\
     session (globals (snd (cell_reduce q))) = session (globals q) /\
     session (globals (snd (cell_plot O q))) = session (globals q) /\
     session (globals (snd (cell_exit q))) = session (globals q)).
Proof.
  cbv zeta. split.
  - pose proof (workflow_runs O p) as R.
    destruct (workflow O p) as [r p']. cbn [fst snd] in *.
    destruct R; histories; intros Hc;
      try (exfalso; revert Hc; members; fail).
    all: match goal with
         | H : credentials (Some ?j) = Ok ?s |- _ =>
             unfold credentials in H;
             destruct j as [| | | | |d]; try discriminate;
             destruct (d !! "accessKeyId") as [key|] eqn:K1; [|discriminate];
             destruct (d !! "secretAccessKey") as [secret|] eqn:K2; [|discriminate];
             destruct (d !! "sessionToken") as [token|] eqn:K3; [|discriminate];
             injection H as <-
         end.
    all: exists d, key, secret, token; repeat split; assumption || reflexivity.
  - intros q.
    rewrite cell_env_run, cell_url_run, cell_open_run, cell_reduce_run,
            cell_plot_run, cell_exit_run.
    repeat split.
    + destruct (session (globals q)) eqn:E; project; rewrite ?E; reflexivity.
    + destruct (s3_url (globals q)); [|reflexivity].
      destruct (raster_open O _ _ _); reflexivity.
    + destruct (da (globals q)) as [a|]; [|reflexivity].
      destruct (squeeze "band" true a); reflexivity.
    + destruct (da_red (globals q)); reflexivity.
    + destruct (rio_env (globals q)); [|reflexivity].
      destruct (gdal_env q); reflexivity.
Qed.

Lemma session_built_once_witness :
  let p' := snd (workflow Sample.good fresh) in
  (Configure ∈ begun fresh p') /\
  exists d key secret token,
    decoded Sample.good (http_get Sample.good (trace fresh) lpdaac_url) = Ok (JObj d) /\
    d !! "accessKeyId" = Some key /\
    d !! "secretAccessKey" = Some secret /\
    d !! "sessionToken" = Some token /\
    session (globals p') = Some (mkSession key secret token "us-west-2").
Proof.
  cbv zeta.
  assert (H : Configure ∈ begun fresh (snd (workflow Sample.good fresh)))
    by (apply (bool_decide_unpack _); vm_compute; exact I).
  split; [exact H|].
  exact (proj1 (session_built_once Sample.good fresh) H).
Defined.

(** ** The visualizer *)

(** C8: the plotting cell hands the array held by [da_red] to the image
    renderer with [x='x'], [y='y'], the [gray] colormap and the [equal]
    aspect, in one call; the globals of the kernel, [da_red] among them,
    and the GDAL environment are after the cell what they were before; the
    cell raises exactly what the renderer raises. *)
Theorem cell_plot_presents (O : Outside) (q : Process) (a : DataArray) :
  da_red (globals q) = Some a ->
  let q' := snd (cell_plot O q) in
  called q q' = [DrawImage a (mkImageOpts "x" "y" "gray" "equal")] /\
  begun q q' = [Render] /\
  globals q' = globals q /\
  da_red (globals q') = Some a /\
  gdal_env q' = gdal_env q /\
  fst (cell_plot O q)
  = match draw_image O (trace q) a (mkImageOpts "x" "y" "gray" "equal") with
    | None => Ok tt
    | Some e => Raise e
    end.
Proof.
  intros Ha. cbv zeta. rewrite cell_plot_run, Ha. histories.
  repeat split; try reflexivity. exact Ha.
Qed.

Lemma cell_plot_presents_witness :
  let a := mkDataArray [("y", 2); ("x", 3)]%nat [11; 12; 13; 21; 22; 23]
                       [("y", [40; 10]); ("x", [5; 35; 65])] in
  let q' := snd (cell_plot Sample.good Sample.reduced) in
  da_red (globals Sample.reduced) = Some a /\
  called Sample.reduced q' = [DrawImage a (mkImageOpts "x" "y" "gray" "equal")] /\
  globals q' = globals Sample.reduced /\
  fst (cell_plot Sample.good Sample.reduced) = Ok tt.
Proof.
  cbv zeta.
  pose proof (cell_plot_presents Sample.good Sample.reduced _ eq_refl) as H.
  cbv zeta in H. destruct H as (Hc & _ & Hg & _ & _ & Hr).
  split; [reflexivity|]. split; [exact Hc|]. split; [exact Hg|]. exact Hr.
Defined.

(** ** End to end *)

(** C7: let the endpoint answer with a document that holds the three
    credentials, let the object store give, to a reader whose innermost
    environment carries the session made of them, a raster of one band over
    the two spatial dimensions, and let the renderer accept an array of
    these two dimensions.  Then the workflow ends without an exception;
    [da_red] is a 2-D array over the two spatial dimensions of the raster,
    with its values; it has been handed to the renderer; and the GDAL
    environment has been released. *)
Theorem workflow_end_to_end
    (O : Outside) (p : Process) (resp : Response) (d : gmap string json)
    (key secret token : json) (a : DataArray) (sp : list (string * nat))
    (h w : nat) :
  (forall t, http_get O t lpdaac_url = Ok resp) ->
  json_loads O (text resp) = Some (JObj d) ->
  d !! "accessKeyId" = Some key ->
  d !! "secretAccessKey" = Some secret ->
  d !! "sessionToken" = Some token ->
  (forall t env rest,
     boto_session (env_session env) = mkSession key secret token "us-west-2" ->
     raster_open O t (env :: rest) hls_red_band = Ok a) ->
  dims a = ("band", 1%nat) :: sp ->
  sp = [("y", h); ("x", w)] \/ sp = [("x", w); ("y", h)] ->
  (forall t img, dims img = sp -> draw_image O t img image_opts = None) ->
  let p' := snd (workflow O p) in
  fst (workflow O p) = Ok tt /\
  exists r,
    da_red (globals p') = Some r /\
    dims r = sp /\
    (forall i j, item r [i; j] = item a [0%nat; i; j]) /\
    last (called p p') = Some EnvExit /\
    DrawImage r image_opts ∈ called p p' /\
    gdal_env p' = gdal_env p.
Proof.
  intros Hget Hjson K1 K2 K3 Hopen Hdims Hsp Hdraw. cbv zeta.
  assert (Hj : decoded O (http_get O (trace p) lpdaac_url) = Ok (JObj d))
    by (rewrite Hget; cbn [decoded]; rewrite Hjson; reflexivity).
  assert (Hs : credentials (Some (JObj d))
               = Ok (mkSession key secret token "us-west-2"))
    by (cbn [credentials]; rewrite K1, K2, K3; reflexivity).
  assert (Hsq : exists r, squeeze "band" true a = Ok r /\ dims r = sp /\
                  forall i j, item r [i; j] = item a [0%nat; i; j]).
  { destruct Hsp as [->| ->];
      destruct (squeeze_one_band a _ _ _ _ Hdims) as (r & E & D & _ & V);
      exists r; auto. }
  destruct Hsq as (r & Hr & Hdr & Hv).
  pose proof (workflow_runs O p) as R.
  destruct (workflow O p) as [res p']. cbn [fst snd] in *.
  destruct R as [e He|j e He Hc|j s e He Hc Ho|j s a' e He Hc Ho Hq
                |j s a' r' e He Hc Ho Hq Hd|j s a' r' He Hc Ho Hq Hd].
  - congruence.
  - rewrite Hj in He. injection He as <-. congruence.
  - rewrite Hj in He. injection He as <-. rewrite Hs in Hc. injection Hc as <-.
    rewrite Hopen in Ho by reflexivity. discriminate.
  - rewrite Hj in He. injection He as <-. rewrite Hs in Hc. injection Hc as <-.
    rewrite Hopen in Ho by reflexivity. injection Ho as <-. congruence.
  - rewrite Hj in He. injection He as <-. rewrite Hs in Hc. injection Hc as <-.
    rewrite Hopen in Ho by reflexivity. injection Ho as <-.
    rewrite Hr in Hq. injection Hq as <-.
    rewrite Hdraw in Hd by exact Hdr. discriminate.
  - rewrite Hj in He. injection He as <-. rewrite Hs in Hc. injection Hc as <-.
    rewrite Hopen in Ho by reflexivity. injection Ho as <-.
    rewrite Hr in Hq. injection Hq as <-.
    split; [reflexivity|]. exists r. histories.
    split; [reflexivity|]. split; [exact Hdr|]. split; [exact Hv|].
    split; [reflexivity|]. split; [members|reflexivity].
Qed.

Lemma workflow_end_to_end_witness :
  let p' := snd (workflow Sample.good fresh) in
  fst (workflow Sample.good fresh) = Ok tt /\
  exists r,
    da_red (globals p') = Some r /\
    dims r = [("y", 2%nat); ("x", 3%nat)] /\
    (forall i j, item r [i; j] = item Sample.raster [0%nat; i; j]) /\
    last (called fresh p') = Some EnvExit /\
    DrawImage r image_opts ∈ called fresh p' /\
    gdal_env p' = gdal_env fresh.
Proof.
  apply (workflow_end_to_end Sample.good fresh
           (mkResponse 200 Sample.creds_doc)
           (list_to_map [("accessKeyId", JStr "AKIA");
                         ("secretAccessKey", JStr "wJal");
                         ("sessionToken", JStr "FwoG");
                         ("expiration", JStr "2022-03-01 12:00:00+00:00")])
           (JStr "AKIA") (JStr "wJal") (JStr "FwoG")
           Sample.raster [("y", 2%nat); ("x", 3%nat)] 2%nat 3%nat).
  - intros t. reflexivity.
  - vm_compute. reflexivity.
  - vm_compute. reflexivity.
  - vm_compute. reflexivity.
  - vm_compute. reflexivity.
  - intros t env rest _. reflexivity.
  - reflexivity.
  - left. reflexivity.
  - intros t img H. cbn [draw_image Sample.good Sample.world]. rewrite H.
    reflexivity.
Defined.

(** A raster of three bands stops the workflow in the reducing step, with
    the environment still entered. *)
Example workflow_three_bands :
  let O := Sample.world 200 Sample.creds_doc Sample.rgb in
  fst (workflow O fresh)
  = Raise (ValueError "cannot select a dimension to squeeze out which has length greater than one") /\
  steps (snd (workflow O fresh)) = [Fetch; Build; Configure; Open; Reduce] /\
  length (gdal_env (snd (workflow O fresh))) = 1%nat.
Proof. vm_compute. repeat split. Qed.

(** * Further properties of the cells *)

(** ** Cells run out of order *)

(** X1: a cell run in a kernel where the name it reads has not been
    assigned raises [NameError] for that name; nothing is called outside the
    kernel, no global is assigned and the GDAL environment is untouched. *)
Theorem cells_need_their_inputs (O : Outside) (q : Process) :
  (temp_creds_req (globals q) = None ->
     cell_session q = (Raise (NameError "temp_creds_req"), stepped Build q)) /\
  (session (globals q) = None ->
     cell_env O q = (Raise (NameError "session"), stepped Configure q)) /\
  (s3_url (globals q) = None ->
     cell_open O q = (Raise (NameError "s3_url"), stepped Open q)) /\
  (da (globals q) = None ->
     cell_reduce q = (Raise (NameError "da"), stepped Reduce q)) /\
  (da_red (globals q) = None ->
     cell_plot O q = (Raise (NameError "da_red"), stepped Render q)) /\
  (rio_env (globals q) = None ->
     cell_exit q = (Raise (NameError "rio_env"), stepped Release q)).
Proof.
  rewrite cell_session_run, cell_env_run, cell_open_run, cell_reduce_run,
          cell_plot_run, cell_exit_run.
  repeat split; intros ->; reflexivity.
Qed.

Lemma cells_need_their_inputs_witness :
  cell_session fresh = (Raise (NameError "temp_creds_req"), stepped Build fresh) /\
  cell_env Sample.good fresh = (Raise (NameError "session"), stepped Configure fresh) /\
  cell_open Sample.good fresh = (Raise (NameError "s3_url"), stepped Open fresh) /\
  cell_reduce fresh = (Raise (NameError "da"), stepped Reduce fresh) /\
  cell_plot Sample.good fresh = (Raise (NameError "da_red"), stepped Render fresh) /\
  cell_exit fresh = (Raise (NameError "rio_env"), stepped Release fresh).
Proof.
  destruct (cells_need_their_inputs Sample.good fresh)
    as (H1 & H2 & H3 & H4 & H5 & H6).
  exact (conj (H1 eq_refl) (conj (H2 eq_refl) (conj (H3 eq_refl)
           (conj (H4 eq_refl) (conj (H5 eq_refl) (H6 eq_refl)))))).
Defined.

(** X2: each of the cells that fetch, build the session, open, reduce,
    plot and exit is one statement, and when it raises it has assigned
    nothing: the globals after it are the globals before it. *)
Theorem failed_cell_assigns_nothing (O : Outside) (q : Process) (c : py unit) :
  c ∈ [cell_fetch O; cell_session; cell_open O; cell_reduce; cell_plot O; cell_exit] ->
  fst (c q) <> Ok tt ->
  globals (snd (c q)) = globals q.
Proof.
  rewrite !elem_of_cons, elem_of_nil.
  intros [->|[->|[->|[->|[->|[->|[]]]]]]].
  - rewrite cell_fetch_run.
    destruct (decoded O _); [intros H; by destruct H|reflexivity].
  - rewrite cell_session_run.
    destruct (credentials _); [intros H; by destruct H|reflexivity].
  - rewrite cell_open_run. destruct (s3_url (globals q)); [|reflexivity].
    destruct (raster_open O _ _ _); [intros H; by destruct H|reflexivity].
  - rewrite cell_reduce_run. destruct (da (globals q)) as [a|]; [|reflexivity].
    destruct (squeeze "band" true a); [intros H; by destruct H|reflexivity].
  - rewrite cell_plot_run. destruct (da_red (globals q)); reflexivity.
  - rewrite cell_exit_run. destruct (rio_env (globals q)); [|reflexivity].
    destruct (gdal_env q); [reflexivity|intros H; by destruct H].
Qed.

Lemma failed_cell_assigns_nothing_witness :
  fst (cell_fetch Sample.offline Sample.reduced) <> Ok tt /\
  globals (snd (cell_fetch Sample.offline Sample.reduced)) = globals Sample.reduced.
Proof.
  assert (Hr : fst (cell_fetch Sample.offline Sample.reduced) <> Ok tt)
    by (vm_compute; discriminate).
  split; [exact Hr|].
  exact (failed_cell_assigns_nothing Sample.offline Sample.reduced _
           (list_elem_of_here _ _) Hr).
Defined.

(** ** The session cell on any document *)

Lemma credentials_ok (c : option json) (s : Session) :
  credentials c = Ok s <->
  exists d key secret token,
    c = Some (JObj d) /\
    d !! "accessKeyId" = Some key /\
    d !! "secretAccessKey" = Some secret /\
    d !! "sessionToken" = Some token /\
    s = mkSession key secret token "us-west-2".
Proof.
  split.
  - unfold credentials. destruct c as [[| | | | |d]|]; try discriminate.
    destruct (d !! "accessKeyId") as [key|] eqn:K1; [|discriminate].
    destruct (d !! "secretAccessKey") as [secret|] eqn:K2; [|discriminate].
    destruct (d !! "sessionToken") as [token|] eqn:K3; [|discriminate].
    intros [= <-]. exists d, key, secret, token. repeat split; assumption.
  - intros (d & key & secret & token & -> & K1 & K2 & K3 & ->).
    cbn [credentials]. rewrite K1, K2, K3. reflexivity.
Qed.

(** X3: the session cell ends normally exactly when [temp_creds_req] is a
    dictionary that has the three keys.  On a dictionary it raises
    [KeyError] for the first key that is missing, in the order
    [accessKeyId], [secretAccessKey], [sessionToken]; on a document that is
    not a dictionary it raises [TypeError]. *)
Theorem cell_session_outcomes (q : Process) (doc : json) :
  temp_creds_req (globals q) = Some doc ->
  (fst (cell_session q) = Ok tt <->
     exists d, doc = JObj d /\ is_Some (d !! "accessKeyId") /\
               is_Some (d !! "secretAccessKey") /\ is_Some (d !! "sessionToken")) /\
  (forall d, doc = JObj d -> d !! "accessKeyId" = None ->
     fst (cell_session q) = Raise (KeyError "accessKeyId")) /\
  (forall d, doc = JObj d -> is_Some (d !! "accessKeyId") ->
     d !! "secretAccessKey" = None ->
     fst (cell_session q) = Raise (KeyError "secretAccessKey")) /\
  (forall d, doc = JObj d -> is_Some (d !! "accessKeyId") ->
     is_Some (d !! "secretAccessKey") -> d !! "sessionToken" = None ->
     fst (cell_session q) = Raise (KeyError "sessionToken")) /\
  ((forall d, doc <> JObj d) -> fst (cell_session q) = Raise TypeError).
Proof.
  intros Hdoc. rewrite cell_session_run, Hdoc. repeat split.
  - destruct (credentials (Some doc)) as [s|e] eqn:E; [|discriminate].
    intros _. apply credentials_ok in E
      as (d & key & secret & token & [= ->] & K1 & K2 & K3 & _).
    exists d. rewrite K1, K2, K3. eauto.
  - intros (d & -> & [key K1] & [secret K2] & [token K3]).
    cbn [credentials]. rewrite K1, K2, K3. reflexivity.
  - intros d -> K1. cbn [credentials]. rewrite K1. reflexivity.
  - intros d -> [key K1] K2. cbn [credentials]. rewrite K1, K2. reflexivity.
  - intros d -> [key K1] [secret K2] K3. cbn [credentials].
    rewrite K1, K2, K3. reflexivity.
  - intros Hnot. destruct doc as [| | | | |d]; try reflexivity.
    destruct (Hnot d eq_refl).
Qed.

Lemma cell_session_outcomes_witness :
  let q := assigned (set_temp_creds_req Sample.denied) fresh in
  temp_creds_req (globals q) = Some Sample.denied /\
  fst (cell_session q) = Raise (KeyError "accessKeyId").
Proof.
  cbv zeta. split; [reflexivity|].
  exact (proj1 (proj2 (cell_session_outcomes
                         (assigned (set_temp_creds_req Sample.denied) fresh)
                         Sample.denied eq_refl))
           _ eq_refl eq_refl).
Defined.

(** X4: the session cell reads the three fields and nothing else of the
    document: on two dictionaries that agree on the three keys, whatever
    else they hold (an expiration date, for one), it has the same outcome
    and assigns the same session. *)
Theorem session_reads_three_fields (q : Process) (d1 d2 : gmap string json) :
  d1 !! "accessKeyId" = d2 !! "accessKeyId" ->
  d1 !! "secretAccessKey" = d2 !! "secretAccessKey" ->
  d1 !! "sessionToken" = d2 !! "sessionToken" ->
  let q1 := assigned (set_temp_creds_req (JObj d1)) q in
  let q2 := assigned (set_temp_creds_req (JObj d2)) q in
  fst (cell_session q1) = fst (cell_session q2) /\
  session (globals (snd (cell_session q1))) = session (globals (snd (cell_session q2))).
Proof.
  intros K1 K2 K3. cbv zeta. rewrite !cell_session_run. project.
  cbn [credentials]. rewrite K1, K2, K3.
  destruct (d2 !! "accessKeyId"); [|split; reflexivity].
  destruct (d2 !! "secretAccessKey"); [|split; reflexivity].
  destruct (d2 !! "sessionToken"); split; reflexivity.
Qed.

Lemma session_reads_three_fields_witness :
  let d1 : gmap string json :=
    list_to_map [("accessKeyId", JStr "AKIA"); ("secretAccessKey", JStr "wJal");
                 ("sessionToken", JStr "FwoG");
                 ("expiration", JStr "2022-03-01 12:00:00+00:00")] in
  let d2 : gmap string json :=
    list_to_map [("accessKeyId", JStr "AKIA"); ("secretAccessKey", JStr "wJal");
                 ("sessionToken", JStr "FwoG")] in
  d1 <> d2 /\
  session (globals (snd (cell_session (assigned (set_temp_creds_req (JObj d1)) fresh))))
  = session (globals (snd (cell_session (assigned (set_temp_creds_req (JObj d2)) fresh)))).
Proof.
  cbv zeta. split.
  - intros E. apply (f_equal (fun m => m !! "expiration")) in E.
    vm_compute in E. discriminate.
  - refine (proj2 (session_reads_three_fields fresh _ _ _ _ _));
      vm_compute; reflexivity.
Defined.

(** ** The reducing cell on any raster *)

Lemma split_dims_size (name : string) (ds : list (string * nat)) :
  size_of name ds
  = match split_dims name ds with
    | Some (_, n, _) => Some n
    | None => None
    end.
Proof.
  induction ds as [|[d n] ds IH]; [reflexivity|].
  cbn [size_of split_dims]. destruct (decide (d = name)); [reflexivity|].
  rewrite IH. destruct (split_dims name ds) as [[[before m] after]|]; reflexivity.
Qed.

Lemma squeeze_ok_iff (a : DataArray) :
  (exists r, squeeze "band" true a = Ok r) <-> size_of "band" (dims a) = Some 1%nat.
Proof.
  unfold squeeze, isel0. rewrite split_dims_size.
  destruct (split_dims "band" (dims a)) as [[[before n] after]|].
  - destruct (decide (1 < n)%nat).
    + split; [intros [r H]; discriminate|intros [= ->]; lia].
    + destruct (decide (0 < n)%nat).
      * split; [intros _; f_equal; lia|eauto].
      * split; [intros [r H]; discriminate|intros [= ->]; lia].
  - split; [intros [r H]; discriminate|discriminate].
Qed.

(** X5: the reducing cell ends normally exactly when the band of [da] has
    size 1.  Without a dimension named [band] it raises [KeyError]; with a
    band longer than 1, [ValueError]; with an empty band, [IndexError].
    The cell never touches [da], and when it raises [da_red] is what it
    was. *)
Theorem cell_reduce_outcomes (q : Process) (a : DataArray) :
  da (globals q) = Some a ->
  (fst (cell_reduce q) = Ok tt <-> size_of "band" (dims a) = Some 1%nat) /\
  (size_of "band" (dims a) = None ->
     fst (cell_reduce q) = Raise (KeyError "band")) /\
  (forall n, size_of "band" (dims a) = Some n -> (1 < n)%nat ->
     fst (cell_reduce q)
     = Raise (ValueError "cannot select a dimension to squeeze out which has length greater than one")) /\
  (size_of "band" (dims a) = Some 0%nat ->
     fst (cell_reduce q) = Raise IndexError) /\
  da (globals (snd (cell_reduce q))) = Some a /\
  (fst (cell_reduce q) <> Ok tt ->
     da_red (globals (snd (cell_reduce q))) = da_red (globals q)).
Proof.
  intros Ha. rewrite cell_reduce_run, Ha.
  pose proof (squeeze_ok_iff a) as Hiff.
  split; [|split; [|split; [|split; [|split]]]].
  - destruct (squeeze "band" true a) as [r|e] eqn:E; cbn [fst].
    + split; [intros _; apply Hiff; eauto|reflexivity].
    + split; [discriminate|]. intros H. apply Hiff in H as [r H]. discriminate.
  - intros H. unfold squeeze. rewrite H. reflexivity.
  - intros n H Hn. unfold squeeze. rewrite H.
    destruct (decide (1 < n)%nat); [reflexivity|lia].
  - intros H. unfold squeeze, isel0. rewrite H.
    rewrite split_dims_size in H.
    destruct (split_dims "band" (dims a)) as [[[before n] after]|]; [|discriminate].
    injection H as ->. reflexivity.
  - destruct (squeeze "band" true a); project; exact Ha.
  - destruct (squeeze "band" true a); [intros H; by destruct H|reflexivity].
Qed.

Lemma cell_reduce_outcomes_witness :
  let q := assigned (set_da Sample.rgb) fresh in
  da (globals q) = Some Sample.rgb /\
  size_of "band" (dims Sample.rgb) = Some 3%nat /\
  fst (cell_reduce q)
  = Raise (ValueError "cannot select a dimension to squeeze out which has length greater than one").
Proof.
  cbv zeta. split; [reflexivity|]. split; [reflexivity|].
  refine (proj1 (proj2 (proj2 (cell_reduce_outcomes
            (assigned (set_da Sample.rgb) fresh) Sample.rgb eq_refl)))
            3%nat eq_refl _).
  lia.
Defined.

(** X6: no pixel is lost.  On a well-formed raster of one band over two
    dimensions, the squeezed array is well formed, holds the same values in
    the same order, one for each pair of indices in range, and each is the
    value of the raster in band 0 at these indices. *)
Theorem squeeze_keeps_every_pixel
    (a : DataArray) (d1 d2 : string) (n1 n2 : nat) :
  dims a = [("band", 1%nat); (d1, n1); (d2, n2)] ->
  well_formed a ->
  exists r,
    squeeze "band" true a = Ok r /\
    well_formed r /\
    values r = values a /\
    length (values r) = (n1 * n2)%nat /\
    forall i j, (i < n1)%nat -> (j < n2)%nat ->
      exists v, item r [i; j] = Some v /\ item a [0%nat; i; j] = Some v.
Proof.
  intros Hd Hwf. unfold well_formed, shape in Hwf. rewrite Hd in Hwf.
  cbn [map snd cells_in foldr] in Hwf.
  eexists. split; [apply (squeeze_leading _ _ _ Hd)|].
  assert (Hv : take (cells_in (map snd [(d1, n1); (d2, n2)])) (values a) = values a).
  { apply take_ge. cbn [map snd cells_in foldr]. lia. }
  unfold well_formed, shape. cbn [dims values]. rewrite Hv.
  split; [cbn [map snd cells_in foldr]; lia|].
  split; [reflexivity|]. split; [lia|].
  intros i j Hi Hj. unfold item, shape. cbn [dims values]. rewrite Hd.
  cbn [map snd]. rewrite flat_index_leading. cbn [flat_index].
  destruct (decide (i < n1)%nat); [|lia].
  destruct (decide (j < n2)%nat); [|lia].
  destruct (lookup_lt_is_Some_2 (values a) ((0 * n1 + i) * n2 + j)) as [v Hvv];
    [nia|].
  exists v. split; exact Hvv.
Qed.

Lemma squeeze_keeps_every_pixel_witness :
  exists r,
    squeeze "band" true Sample.raster = Ok r /\
    well_formed r /\
    values r = values Sample.raster /\
    length (values r) = (2 * 3)%nat /\
    forall i j, (i < 2)%nat -> (j < 3)%nat ->
      exists v, item r [i; j] = Some v /\ item Sample.raster [0%nat; i; j] = Some v.
Proof.
  exact (squeeze_keeps_every_pixel Sample.raster "y" "x" 2 3 eq_refl eq_refl).
Defined.

(** ** Entering and leaving the environment *)

(** X7: with [session] assigned, the configuring cell followed by the exit
    cell leaves GDAL's environments as they were, through one enter and one
    exit.  The configuring cell run twice enters two environments, of which
    one exit cell leaves only the inner one: the outer one stays entered. *)
Theorem enter_exit_round_trip (O : Outside) (q : Process) (s : Session) :
  session (globals q) = Some s ->
  let q1 := snd (cell_env O q) in
  let q2 := snd (cell_exit q1) in
  let q3 := snd (cell_exit (snd (cell_env O q1))) in
  fst (cell_env O q) = Ok tt /\
  gdal_env q1 = the_env O s :: gdal_env q /\
  fst (cell_exit q1) = Ok tt /\
  gdal_env q2 = gdal_env q /\
  called q q2 = [EnvEnter (the_env O s); EnvExit] /\
  gdal_env q3 = the_env O s :: gdal_env q.
Proof.
  intros Hs. cbv zeta.
  assert (E1 : cell_env O q
               = (Ok tt, with_gdal (the_env O s :: gdal_env q)
                           (logged (EnvEnter (the_env O s))
                              (assigned (set_rio_env (the_env O s))
                                 (stepped Configure q)))))
    by (rewrite cell_env_run, Hs; reflexivity).
  rewrite E1. cbn [fst snd].
  rewrite !cell_env_run, !cell_exit_run. project. rewrite Hs. project.
  unfold called. project. rewrite <- ?app_assoc. cbn [app].
  rewrite drop_app_length. repeat split; reflexivity.
Qed.

Lemma enter_exit_round_trip_witness :
  let s := mkSession (JStr "AKIA") (JStr "wJal") (JStr "FwoG") "us-west-2" in
  let q := assigned (set_session s) fresh in
  let q2 := snd (cell_exit (snd (cell_env Sample.good q))) in
  session (globals q) = Some s /\
  gdal_env q2 = gdal_env q /\
  called q q2 = [EnvEnter (the_env Sample.good s); EnvExit].
Proof.
  cbv zeta.
  pose proof (enter_exit_round_trip Sample.good
                (assigned (set_session
                   (mkSession (JStr "AKIA") (JStr "wJal") (JStr "FwoG") "us-west-2"))
                   fresh) _ eq_refl) as H.
  cbv zeta in H. destruct H as (_ & _ & _ & H4 & H5 & _).
  split; [reflexivity|]. split; [exact H4|exact H5].
Defined.

(** X8: a run in which the configuring step has not begun has stopped in
    the fetch or in the building of the session; it has made the one
    request and no other call, has assigned no environment to [rio_env],
    has left GDAL's environments as they were, and has ended with an
    exception. *)
Theorem early_failure_enters_nothing (O : Outside) (p : Process) :
  let r := fst (workflow O p) in
  let p' := snd (workflow O p) in
  Configure ∉ begun p p' ->
  (begun p p' = [Fetch] \/ begun p p' = [Fetch; Build]) /\
  called p p' = [HttpGet lpdaac_url None] /\
  rio_env (globals p') = rio_env (globals p) /\
  gdal_env p' = gdal_env p /\
  exists e, r = Raise e.
Proof.
  cbv zeta. pose proof (workflow_runs O p) as R.
  destruct (workflow O p) as [r p']. cbn [fst snd] in *.
  destruct R; histories; intros Hc;
    try (exfalso; apply Hc; members; fail).
  all: repeat split; eauto.
Qed.

Lemma early_failure_enters_nothing_witness :
  let p' := snd (workflow Sample.offline fresh) in
  (Configure ∉ begun fresh p') /\
  gdal_env p' = gdal_env fresh /\
  called fresh p' = [HttpGet lpdaac_url None].
Proof.
  cbv zeta.
  assert (H : Configure ∉ begun fresh (snd (workflow Sample.offline fresh)))
    by (apply (bool_decide_unpack _); vm_compute; exact I).
  pose proof (early_failure_enters_nothing Sample.offline fresh) as T.
  cbv zeta in T. destruct (T H) as (_ & Hcalls & _ & Hg & _).
  split; [exact H|]. split; [exact Hg|exact Hcalls].
Defined.

(** ** What flows from cell to cell *)



(** X10: whenever the workflow draws an image, it draws with the options of
    the notebook the array that [squeeze] made of the raster it has read in
    this run; at the end of the run [da] still holds the raster as read,
    [da_red] the array drawn, and [s3_url] the address of the red band. *)
Theorem picture_is_band_of_raster
    (O : Outside) (p : Process) (img : DataArray) (opts : ImageOpts) :
  let p' := snd (workflow O p) in
  DrawImage img opts ∈ called p p' ->
  opts = mkImageOpts "x" "y" "gray" "equal" /\
  exists a env,
    raster_open O (trace p ++ [HttpGet lpdaac_url None; EnvEnter env])
      (env :: gdal_env p) hls_red_band = Ok a /\
    squeeze "band" true a = Ok img /\
    da (globals p') = Some a /\
    da_red (globals p') = Some img /\
    s3_url (globals p') = Some hls_red_band.
Proof.
  cbv zeta. pose proof (workflow_runs O p) as R.
  destruct (workflow O p) as [r p']. cbn [fst snd] in *.
  destruct R as [e He|j e He Hc|j s e He Hc Ho|j s a e He Hc Ho Hq
                |j s a r' e He Hc Ho Hq Hd|j s a r' He Hc Ho Hq Hd];
    histories; intros Hin;
    try (exfalso; revert Hin; members; fail).
  all: assert (Hev : img = r' /\ opts = image_opts)
         by (revert Hin; rewrite ?elem_of_cons, ?elem_of_nil;
             intuition (try discriminate; try congruence)).
  all: destruct Hev as [-> ->].
  all: split; [reflexivity|]; exists a, (the_env O s).
  all: match goal with
       | H : raster_open _ (trace _) _ _ = _ |- _ => histories_in H
       end.
  all: repeat split; first [assumption|reflexivity].
Qed.

Lemma picture_is_band_of_raster_witness :
  let p' := snd (workflow Sample.good fresh) in
  let img := mkDataArray [("y", 2); ("x", 3)]%nat [11; 12; 13; 21; 22; 23]
                         [("y", [40; 10]); ("x", [5; 35; 65])] in
  (DrawImage img image_opts ∈ called fresh p') /\
  exists a, squeeze "band" true a = Ok img /\ da (globals p') = Some a.
Proof.
  cbv zeta.
  set (img := mkDataArray [("y", 2); ("x", 3)]%nat [11; 12; 13; 21; 22; 23]
                          [("y", [40; 10]); ("x", [5; 35; 65])]).
  assert (Hin : DrawImage img image_opts
                ∈ called fresh (snd (workflow Sample.good fresh))).
  { change (called fresh (snd (workflow Sample.good fresh)))
      with (let env := the_env Sample.good
                         (mkSession (JStr "AKIA") (JStr "wJal") (JStr "FwoG")
                                    "us-west-2") in
            [HttpGet lpdaac_url None; EnvEnter env; RasterOpen hls_red_band [env];
             DrawImage img image_opts; EnvExit]).
    cbv zeta.
    apply list_elem_of_further, list_elem_of_further, list_elem_of_further,
          list_elem_of_here. }
  destruct (picture_is_band_of_raster Sample.good fresh _ _ Hin)
    as (_ & a & env & _ & Hs & Hda & _).
  split; [exact Hin|]. exists a. split; [exact Hs|exact Hda].
Defined.

(** ** A rejected request, and runs after a run *)

(** X11: when the endpoint answers, with whatever status, by a JSON
    dictionary that has no [accessKeyId] (the body of a refusal, say), the
    fetch does not fail: the workflow stops in the building of the session
    with [KeyError] for [accessKeyId], after the one request; the document
    is left in [temp_creds_req], [session] is not assigned and no
    environment is entered. *)
Theorem refusal_surfaces_as_key_error
    (O : Outside) (p : Process) (resp : Response) (d : gmap string json) :
  http_get O (trace p) lpdaac_url = Ok resp ->
  json_loads O (text resp) = Some (JObj d) ->
  d !! "accessKeyId" = None ->
  let p' := snd (workflow O p) in
  fst (workflow O p) = Raise (KeyError "accessKeyId") /\
  begun p p' = [Fetch; Build] /\
  called p p' = [HttpGet lpdaac_url None] /\
  temp_creds_req (globals p') = Some (JObj d) /\
  session (globals p') = session (globals p) /\
  gdal_env p' = gdal_env p.
Proof.
  intros Hget Hjson K1. cbv zeta.
  assert (Hj : decoded O (http_get O (trace p) lpdaac_url) = Ok (JObj d))
    by (rewrite Hget; cbn [decoded]; rewrite Hjson; reflexivity).
  assert (Hs : credentials (Some (JObj d)) = Raise (KeyError "accessKeyId"))
    by (cbn [credentials]; rewrite K1; reflexivity).
  pose proof (workflow_runs O p) as R.
  destruct (workflow O p) as [r p']. cbn [fst snd] in *.
  destruct R as [e He|j e He Hc|j s e He Hc Ho|j s a e He Hc Ho Hq
                |j s a r' e He Hc Ho Hq Hd|j s a r' He Hc Ho Hq Hd];
    rewrite Hj in He; try discriminate; injection He as <-;
    rewrite Hs in Hc; try discriminate; injection Hc as <-.
  histories. repeat split; reflexivity.
Qed.

Lemma refusal_surfaces_as_key_error_witness :
  let O := Sample.world 401 Sample.denied_doc Sample.raster in
  fst (workflow O fresh) = Raise (KeyError "accessKeyId") /\
  begun fresh (snd (workflow O fresh)) = [Fetch; Build] /\
  gdal_env (snd (workflow O fresh)) = gdal_env fresh.
Proof.
  cbv zeta.
  pose proof (refusal_surfaces_as_key_error
                (Sample.world 401 Sample.denied_doc Sample.raster) fresh
                (mkResponse 401 Sample.denied_doc)
                (list_to_map [("message", JStr "Unauthorized")])
                eq_refl) as H.
  cbv zeta in H.
  destruct H as (H1 & H2 & _ & _ & _ & H6);
    [vm_compute; reflexivity|vm_compute; reflexivity|].
  split; [exact H1|]. split; [exact H2|exact H6].
Defined.

(** The GDAL environments after a run. *)
Lemma workflow_gdal_env (O : Outside) (p : Process) :
  (fst (workflow O p) = Ok tt -> gdal_env (snd (workflow O p)) = gdal_env p) /\
  (fst (workflow O p) <> Ok tt ->
     Open ∈ begun p (snd (workflow O p)) ->
     exists env, gdal_env (snd (workflow O p)) = env :: gdal_env p).
Proof.
  pose proof (workflow_runs O p) as R.
  destruct (workflow O p) as [r p']. cbn [fst snd] in *.
  destruct R; histories; split; try discriminate; try reflexivity.
  all: intros Hr Ho; try (exfalso; revert Ho; members; fail).
  all: first [eexists; reflexivity | destruct (Hr eq_refl)].
Qed.

(** X12: an environment left entered by a run that failed stays entered
    through the runs that follow in the same kernel: after a run that
    raised once the opening had begun and a second run that ended normally,
    GDAL's environments are those from before the first run with the
    environment of the first run on top. *)
Theorem leak_survives_next_run (O1 O2 : Outside) (p : Process) :
  let p1 := snd (workflow O1 p) in
  let p2 := snd (workflow O2 p1) in
  fst (workflow O1 p) <> Ok tt ->
  Open ∈ begun p p1 ->
  fst (workflow O2 p1) = Ok tt ->
  exists env, gdal_env p1 = env :: gdal_env p /\ gdal_env p2 = env :: gdal_env p.
Proof.
  cbv zeta. intros H1 Ho H2.
  destruct (proj2 (workflow_gdal_env O1 p) H1 Ho) as [env E1].
  exists env. split; [exact E1|].
  rewrite (proj1 (workflow_gdal_env O2 _) H2). exact E1.
Qed.

Lemma leak_survives_next_run_witness :
  let O1 := Sample.world 200 Sample.creds_doc Sample.rgb in
  let p1 := snd (workflow O1 fresh) in
  let p2 := snd (workflow Sample.good p1) in
  fst (workflow Sample.good p1) = Ok tt /\
  exists env, gdal_env p1 = [env] /\ gdal_env p2 = [env].
Proof.
  cbv zeta.
  assert (H2 : fst (workflow Sample.good
                      (snd (workflow (Sample.world 200 Sample.creds_doc Sample.rgb) fresh)))
               = Ok tt) by (vm_compute; reflexivity).
  split; [exact H2|].
  apply (leak_survives_next_run (Sample.world 200 Sample.creds_doc Sample.rgb)
           Sample.good fresh).
  - vm_compute. discriminate.
  - apply (bool_decide_unpack _). vm_compute. exact I.
  - exact H2.
Defined.

(** The process after a run that ended normally. *)
Lemma workflow_ok_end (O : Outside) (p : Process) :
  fst (workflow O p) = Ok tt ->
  s3_url (globals (snd (workflow O p))) = Some hls_red_band /\
  gdal_env (snd (workflow O p)) = gdal_env p.
Proof.
  pose proof (workflow_runs O p) as R.
  destruct (workflow O p) as [r p']. cbn [fst snd] in *.
  destruct R; try discriminate. intros _. split; reflexivity.
Qed.

(** X13: the opening cell takes its environment from the process, not from
    [rio_env]: run again after a workflow that has ended normally, it asks
    for the same object under the environments from before the workflow,
    the one of the notebook having been left. *)
Theorem reopening_after_exit (O O' : Outside) (p : Process) :
  fst (workflow O p) = Ok tt ->
  let p' := snd (workflow O p) in
  called p' (snd (cell_open O' p')) = [RasterOpen hls_red_band (gdal_env p)] /\
  gdal_env (snd (cell_open O' p')) = gdal_env p.
Proof.
  intros Hok. cbv zeta.
  destruct (workflow_ok_end O p Hok) as [Hu Hg].
  rewrite cell_open_run, Hu, Hg.
  destruct (raster_open O' _ _ _); unfold called; project;
    rewrite drop_app_length; split; first [reflexivity|exact Hg].
Qed.

Lemma reopening_after_exit_witness :
  let p' := snd (workflow Sample.good fresh) in
  fst (workflow Sample.good fresh) = Ok tt /\
  called p' (snd (cell_open Sample.good p')) = [RasterOpen hls_red_band []] /\
  fst (cell_open Sample.good p') = Raise (LibError "rasterio" "access denied").
Proof.
  cbv zeta.
  assert (H : fst (workflow Sample.good fresh) = Ok tt) by (vm_compute; reflexivity).
  split; [exact H|].
  split; [exact (proj1 (reopening_after_exit Sample.good Sample.good fresh H))|].
  vm_compute. reflexivity.
Defined.

(** ** The path of the cookie file *)

(** With a home directory that ends in a slash, and with [/] for home. *)
Example expanduser_trailing_slash :
  expanduser (mkOutside "/home/jovyan/" (http_get Sample.offline)
                (json_loads Sample.offline) (raster_open Sample.offline)
                (draw_image Sample.offline)) "~/cookies.txt"
  = "/home/jovyan/cookies.txt" /\
  expanduser (mkOutside "/" (http_get Sample.offline)
                (json_loads Sample.offline) (raster_open Sample.offline)
                (draw_image Sample.offline)) "~/cookies.txt"
  = "/cookies.txt" /\
  expanduser (mkOutside "/" (http_get Sample.offline)
                (json_loads Sample.offline) (raster_open Sample.offline)
                (draw_image Sample.offline)) "~"
  = "/".
Proof. repeat split. Qed.
